(** * Shallow embedding of [status] from src/lib.rs (rust-bedrock-server-status)

    The single public function [status (h, p)] sends a RakNet unconnected
    ping over UDP and decodes the unconnected pong.  Bytes are modelled as
    [Z] values in [0, 255]; Rust strings ([String], [&str]) as the list of
    their UTF-8 bytes, which is what a Rust [str] is.  The socket and the
    environment are modelled by a [world] record and a trace of socket
    operations threaded through a small state/result monad. *)

From Stdlib Require Import List ZArith Lia Bool String Ascii.
Import ListNotations.
Open Scope Z_scope.

(** ** Rust results and panics *)

(** Errors propagated with [?] into [Box<dyn Error>]. *)
Inductive error :=
| IoError            (* std::io::Error from a socket call *)
| SystemTimeError    (* SystemTime::duration_since before UNIX_EPOCH *)
| TryFromIntError    (* u128 -> i64 conversion of the milliseconds *)
| Utf8Error.         (* str::from_utf8 on invalid bytes *)

(** Outcome of a computation: a value, an error returned through [?], or a
    panic raised by [expect] or by an out-of-range slice. *)
Inductive res (A : Type) :=
| Ok (a : A)
| Err (e : error)
| Panic (msg : string).
Arguments Ok {A} a.
Arguments Err {A} e.
Arguments Panic {A} msg.

Definition res_bind {A B} (r : res A) (k : A -> res B) : res B :=
  match r with
  | Ok a => k a
  | Err e => Err e
  | Panic m => Panic m
  end.

Notation "'let?' x ':=' r 'in' k" := (res_bind r (fun x => k))
  (at level 200, x name, r at level 100, k at level 200).

(** [Result::expect]: any error becomes a panic with the given message. *)
Definition expect {A} (r : res A) (msg : string) : res A :=
  match r with
  | Ok a => Ok a
  | Err _ => Panic msg
  | Panic m => Panic m
  end.

(** ** Bytes, slices and integers *)

Abbreviation bytes := (list Z).

(** ASCII literal as bytes (for the [format!] separators and tests). *)
Definition lit (s : string) : bytes :=
  map (fun a => Z.of_nat (nat_of_ascii a)) (list_ascii_of_string s).

(** [&v[i..j]]: panics unless [i <= j <= v.len()]. *)
Definition slice (i j : nat) (v : bytes) : res bytes :=
  if Nat.leb i j then
    if Nat.leb j (List.length v) then Ok (firstn (j - i) (skipn i v))
    else Panic "range end index out of range for slice"
  else Panic "slice index starts after its end".

(** [i64::to_be_bytes] (two's complement, most significant byte first). *)
Definition i64_to_be_bytes (x : Z) : bytes :=
  let u := x mod 2 ^ 64 in
  map (fun k => Z.land (Z.shiftr u (8 * k)) 255) [7; 6; 5; 4; 3; 2; 1; 0].

(** [i64::from_be_bytes] on eight bytes. *)
Definition i64_from_be_bytes (b : bytes) : Z :=
  let u := fold_left (fun acc x => acc * 256 + x) b 0 in
  if u <? 2 ^ 63 then u else u - 2 ^ 64.

(** Decimal digits of a non-negative integer ([Display] for integers);
    20 digits cover every value of [u64]/[i64]. *)
Fixpoint udec (fuel : nat) (n : Z) : bytes :=
  match fuel with
  | O => []
  | S f => if n <? 10 then [48 + n] else udec f (n / 10) ++ [48 + n mod 10]
  end.

Definition int_to_string (z : Z) : bytes :=
  if z <? 0 then 45 :: udec 20 (- z) else udec 20 z.

(** [<i32 as FromStr>::from_str] (core::num, [from_str_radix] with radix
    10): optional sign, then decimal digits with checked arithmetic. *)
Definition i32_min := - 2 ^ 31.
Definition i32_max := 2 ^ 31 - 1.

Definition to_digit (c : Z) : option Z :=
  if (48 <=? c) && (c <=? 57) then Some (c - 48) else None.

Fixpoint acc_pos (result : Z) (s : bytes) : option Z :=
  match s with
  | [] => Some result
  | c :: r =>
      match to_digit c with
      | None => None
      | Some x =>
          let result' := result * 10 + x in
          if result' <=? i32_max then acc_pos result' r else None
      end
  end.

Fixpoint acc_neg (result : Z) (s : bytes) : option Z :=
  match s with
  | [] => Some result
  | c :: r =>
      match to_digit c with
      | None => None
      | Some x =>
          let result' := result * 10 - x in
          if i32_min <=? result' then acc_neg result' r else None
      end
  end.

Definition parse_i32 (src : bytes) : option Z :=
  match src with
  | [] => None
  | c :: rest =>
      if ((c =? 43) || (c =? 45)) && (match rest with [] => true | _ => false end)
      then None
      else if c =? 43 then acc_pos 0 rest
      else if c =? 45 then acc_neg 0 rest
      else acc_pos 0 src
  end.

Definition unwrap_or (o : option Z) (d : Z) : Z :=
  match o with Some v => v | None => d end.

(** [str::from_utf8] validity (core::str::validations::run_utf8_validation):
    shortest forms only, no surrogates, nothing above U+10FFFF. *)
Definition in_range (lo hi c : Z) : bool := (lo <=? c) && (c <=? hi).
Definition cont (c : Z) : bool := in_range 128 191 c.

Fixpoint utf8_valid (v : bytes) : bool :=
  match v with
  | [] => true
  | b :: r =>
      if b <? 128 then utf8_valid r
      else if in_range 194 223 b then
        match r with c1 :: r1 => cont c1 && utf8_valid r1 | [] => false end
      else if in_range 224 239 b then
        match r with
        | c1 :: c2 :: r2 =>
            (if b =? 224 then in_range 160 191 c1
             else if b =? 237 then in_range 128 159 c1
             else cont c1) && cont c2 && utf8_valid r2
        | _ => false
        end
      else if in_range 240 244 b then
        match r with
        | c1 :: c2 :: c3 :: r3 =>
            (if b =? 240 then in_range 144 191 c1
             else if b =? 244 then in_range 128 143 c1
             else cont c1) && cont c2 && cont c3 && utf8_valid r3
        | _ => false
        end
      else false
  end.

Definition from_utf8 (v : bytes) : res bytes :=
  if utf8_valid v then Ok v else Err Utf8Error.

(** [str::split(";")]: the pieces between the occurrences of [';'] (byte
    59, which in UTF-8 only ever encodes that character), always at least
    one piece. *)
Fixpoint split_semi (s : bytes) : list bytes :=
  match s with
  | [] => [[]]
  | c :: r =>
      if c =? 59 then [] :: split_semi r
      else match split_semi r with
           | p :: ps => (c :: p) :: ps
           | [] => [[c]]
           end
  end.

Fixpoint join_semi (ps : list bytes) : bytes :=
  match ps with
  | [] => []
  | [p] => p
  | p :: r => p ++ 59 :: join_semi r
  end.

Definition bytes_eqb (a b : bytes) : bool :=
  if list_eq_dec Z.eq_dec a b then true else false.

(** ** Data model (the structs of lib.rs) *)

Record Server := mkServer {
  host : bytes;
  port : Z;
  remote_host : bytes;
  guid : Z;
  edition : bytes;
  motd : bytes * bytes;
}.

Record Players := mkPlayers {
  online : Z;
  max : Z;
}.

Record Version := mkVersion {
  protocol : Z;
  name : bytes;
}.

Record Status := mkStatus {
  server : Server;
  version : Version;
  players : Players;
}.

(** [static MAGIC: [u8; 16]]. *)
Definition MAGIC : bytes :=
  [0x00; 0xFF; 0xFF; 0x00; 0xFE; 0xFE; 0xFE; 0xFE;
   0xFD; 0xFD; 0xFD; 0xFD; 0x12; 0x34; 0x56; 0x78].

(** ** Sockets and environment *)

(** The socket is bound to [Ipv4Addr::UNSPECIFIED], so the peer address
    returned by [recv_from] is an IPv4 [SocketAddr]. *)
Record sock_addr := mkAddr { ip0 : Z; ip1 : Z; ip2 : Z; ip3 : Z; sport : Z }.

(** [<SocketAddrV4 as Display>]: ["a.b.c.d:port"]. *)
Definition sock_addr_to_string (a : sock_addr) : bytes :=
  int_to_string (ip0 a) ++ [46] ++ int_to_string (ip1 a) ++ [46] ++
  int_to_string (ip2 a) ++ [46] ++ int_to_string (ip3 a) ++ [58] ++
  int_to_string (sport a).

(** [Duration] as (seconds, nanoseconds). *)
Definition duration := (Z * Z)%type.

(** Socket operations, in the order the program issues them. *)
Inductive sock_op :=
| OpBind
| OpConnect (addr : bytes)
| OpSetReadTimeout (d : option duration)
| OpSetWriteTimeout (d : option duration)
| OpSend (buf : bytes)
| OpRecvFrom (buf_len : nat).

(** What the outside world answers: bind, name resolution, wall clock (in
    milliseconds since the epoch, negative before it), the eight bytes of
    [rand::random], the send, and the one datagram received with its
    source address ([None]: timeout or other receive error). *)
Record world := mkWorld {
  w_bind_ok : bool;
  w_resolve : bytes -> bool;
  w_now_ms : Z;
  w_rand : bytes;
  w_send_ok : bool;
  w_recv : option (bytes * sock_addr);
}.

(** State/result monad threading the trace of socket operations. *)
Definition M (A : Type) := list sock_op -> list sock_op * res A.

Definition ret {A} (a : A) : M A := fun tr => (tr, Ok a).
Definition lift {A} (r : res A) : M A := fun tr => (tr, r).
Definition mbind {A B} (m : M A) (k : A -> M B) : M B :=
  fun tr =>
    match m tr with
    | (tr', Ok a) => k a tr'
    | (tr', Err e) => (tr', Err e)
    | (tr', Panic s) => (tr', Panic s)
    end.
Definition emit (o : sock_op) : M unit := fun tr => (tr ++ [o], Ok tt).

Notation "x <- m ;; k" := (mbind m (fun x => k))
  (at level 61, m at next level, right associativity).
Notation "m ;;; k" := (mbind m (fun _ => k))
  (at level 61, right associativity).

Section Socket.
Variable w : world.

Definition udp_bind : M unit :=
  emit OpBind ;;; lift (if w_bind_ok w then Ok tt else Err IoError).

Definition udp_connect (addr : bytes) : M unit :=
  emit (OpConnect addr) ;;;
  lift (if w_resolve w addr then Ok tt else Err IoError).

(** [set_read_timeout]/[set_write_timeout] reject a zero duration. *)
Definition zero_dur (d : option duration) : bool :=
  match d with Some (s, n) => (s =? 0) && (n =? 0) | None => false end.

Definition set_read_timeout (d : option duration) : M unit :=
  emit (OpSetReadTimeout d) ;;;
  lift (if zero_dur d then Err IoError else Ok tt).

Definition set_write_timeout (d : option duration) : M unit :=
  emit (OpSetWriteTimeout d) ;;;
  lift (if zero_dur d then Err IoError else Ok tt).

Definition udp_send (buf : bytes) : M nat :=
  emit (OpSend buf) ;;;
  lift (if w_send_ok w then Ok (List.length buf) else Err IoError).

(** [recv_from(&mut packet)]: the datagram is copied to the front of the
    buffer, truncated to its length; returns the byte count and source. *)
Definition udp_recv_from (packet : bytes) : M (bytes * nat * sock_addr) :=
  emit (OpRecvFrom (List.length packet)) ;;;
  lift (match w_recv w with
        | Some (d, src) =>
            let n := Nat.min (List.length d) (List.length packet) in
            Ok (firstn n d ++ skipn n packet, n, src)
        | None => Err IoError
        end).

(** [start.duration_since(UNIX_EPOCH)?.as_millis().try_into()?]. *)
Definition since_epoch_ms : res Z :=
  if w_now_ms w <? 0 then Err SystemTimeError
  else if w_now_ms w <=? 2 ^ 63 - 1 then Ok (w_now_ms w)
  else Err TryFromIntError.

End Socket.

(** ** The program *)

(** Lines 50-64: the unconnected ping. *)
Definition build_ping (since_epoch : Z) (client_guid : bytes) : bytes :=
  let buf := [0x01] in
  let buf := buf ++ i64_to_be_bytes since_epoch in
  let buf := buf ++ MAGIC in
  buf ++ client_guid.

(** Lines 80-110: split the server data and assemble the [Status]. *)
Definition mk_status (h : bytes) (port : Z) (src : sock_addr) (guid : Z)
    (server_data : bytes) : Status :=
  let server_data_parts := firstn 9 (split_semi server_data) in
  let get_part_string (index : nat) := nth index server_data_parts [] in
  let server_unique_id := get_part_string 6%nat in
  (* the comparison with the binary GUID has an empty body *)
  let _ := negb (bytes_eqb server_unique_id (int_to_string guid)) in
  {| server := {| host := h;
                  port := port;
                  guid := guid;
                  remote_host := sock_addr_to_string src;
                  motd := (get_part_string 1%nat, get_part_string 7%nat);
                  edition := get_part_string 0%nat |};
     version := {| protocol := unwrap_or (parse_i32 (get_part_string 2%nat)) 1;
                   name := get_part_string 3%nat |};
     players := {| online := unwrap_or (parse_i32 (get_part_string 4%nat)) (-1);
                   max := unwrap_or (parse_i32 (get_part_string 5%nat)) (-1) |} |}.

(** Lines 72-110: decode the pong held in [packet] ([amt] bytes received). *)
Definition decode_pong (h : bytes) (port : Z) (packet : bytes) (amt : nat)
    (src : sock_addr) : res Status :=
  let? guid_bytes := slice (8 + 1) (8 + 8 + 1) packet in
  let guid := i64_from_be_bytes guid_bytes in
  let? server_data_bytes := slice (8 + 8 + 16 + 2 + 1) amt packet in
  let? server_data := expect (from_utf8 server_data_bytes)
                             "could not decode server data" in
  Ok (mk_status h port src guid server_data).

(** [.expect(msg)] on a socket call. *)
Definition mexpect {A} (m : M A) (msg : string) : M A :=
  fun tr => let '(tr', r) := m tr in (tr', expect r msg).

(** [pub fn status(h: String, p: Option<i32>)]. *)
Definition status (h : bytes) (p : option Z) (w : world) : M Status :=
  let port := unwrap_or p 19132 in
  mexpect (udp_bind w) "could not bind to local address" ;;;
  mexpect (udp_connect w (h ++ [58] ++ int_to_string port))
          "connection with server failed" ;;;
  set_read_timeout (Some (2, 0)) ;;;
  set_write_timeout (Some (2, 0)) ;;;
  since_epoch <- lift (since_epoch_ms w) ;;
  let buf := build_ping since_epoch (w_rand w) in
  mexpect (udp_send w buf) "could not send message" ;;;
  let packet := repeat 0 1024 in
  r <- mexpect (udp_recv_from w packet) "could not get status" ;;
  let '(packet, amt, src) := r in
  lift (decode_pong h port packet amt src).

(** A call from an empty trace. *)
Definition run_status (h : bytes) (p : option Z) (w : world) :=
  status h p w [].

(** ** Views used by the statements *)

(** Bytes [i..j) of a sequence. *)
Definition sub (i j : nat) (v : bytes) : bytes := firstn (j - i) (skipn i v).

(** The 1024-byte receive buffer after [recv_from] of datagram [d], and the
    byte count it returns. *)
Definition recv_count (d : bytes) : nat := Nat.min (List.length d) 1024.
Definition recv_buffer (d : bytes) : bytes :=
  firstn (recv_count d) d ++ skipn (recv_count d) (repeat 0 1024).

(** The address string [format!("{}:{}", h, port)]. *)
Definition connect_addr (h : bytes) (p : option Z) : bytes :=
  h ++ [58] ++ int_to_string (unwrap_or p 19132).

Ltac unfold_status :=
  unfold run_status, status;
  let pk := fresh "pk" in
  let Hpk := fresh "Hpk" in
  remember (repeat 0 1024) as pk eqn:Hpk;
  unfold mbind, mexpect, udp_bind, udp_connect, set_read_timeout,
    set_write_timeout, udp_send, udp_recv_from, lift, emit, expect;
  cbn [zero_dur Z.eqb andb].

(** Replace the token at [i] (as a caller editing one field would). *)
Fixpoint replace_nth {A} (i : nat) (x : A) (l : list A) : list A :=
  match l, i with
  | [], _ => []
  | _ :: r, O => x :: r
  | y :: r, S k => y :: replace_nth k x r
  end.

(** ** Concrete replies *)

(** An unconnected pong: id 0x1c, timestamp, server GUID, magic, 2-byte
    length of the server data, then the server data. *)
Definition pong (server_guid : Z) (server_data : bytes) : bytes :=
  [0x1c] ++ i64_to_be_bytes 1 ++ i64_to_be_bytes server_guid ++ MAGIC ++
  [Z.shiftr (Z.of_nat (List.length server_data)) 8;
   Z.land (Z.of_nat (List.length server_data)) 255] ++ server_data.

Definition some_src : sock_addr := mkAddr 192 168 1 20 19132.

(** A world in which every socket call succeeds and [d] arrives. *)
Definition answering (d : bytes) : world :=
  mkWorld true (fun _ => true) 1700000000000 [1; 2; 3; 4; 5; 6; 7; 8] true
          (Some (d, some_src)).

Definition golden_data : bytes :=
  lit "MCPE;Dedicated Server;475;1.18.0;5;20;1234567890;Bedrock level;Survival;1;19132;19133;".
Definition localhost : bytes := lit "localhost".

Definition golden_world : world := answering (pong 7 golden_data).

Definition golden_status : Status :=
  mk_status localhost 19132 some_src 7 golden_data.
(** The same world with another answer to [recv_from]. *)
Definition with_reply (w : world) (r : option (bytes * sock_addr)) : world :=
  mkWorld (w_bind_ok w) (w_resolve w) (w_now_ms w) (w_rand w) (w_send_ok w) r.

(** ** Lemmas about the embedding *)

Lemma slice_ok i j v r :
  slice i j v = Ok r -> (i <= j <= List.length v)%nat /\ r = sub i j v.
Proof.
  unfold slice, sub.
  destruct (Nat.leb i j) eqn:E1; [|discriminate].
  destruct (Nat.leb j (List.length v)) eqn:E2; [|discriminate].
  apply Nat.leb_le in E1; apply Nat.leb_le in E2.
  intros H; inversion H; subst; split; [lia | reflexivity].
Qed.

Lemma slice_in i j v :
  (i <= j <= List.length v)%nat -> slice i j v = Ok (sub i j v).
Proof.
  intros H; unfold slice.
  replace (Nat.leb i j) with true by (symmetry; apply Nat.leb_le; lia).
  replace (Nat.leb j (List.length v)) with true by (symmetry; apply Nat.leb_le; lia).
  reflexivity.
Qed.

Lemma decode_pong_ok h port packet amt src st :
  decode_pong h port packet amt src = Ok st ->
  (17 <= List.length packet)%nat /\ (35 <= amt <= List.length packet)%nat /\
  utf8_valid (sub 35 amt packet) = true /\
  st = mk_status h port src (i64_from_be_bytes (sub 9 17 packet))
         (sub 35 amt packet).
Proof.
  unfold decode_pong, res_bind.
  destruct (slice (8 + 1) (8 + 8 + 1) packet) as [g| |] eqn:Hg; try discriminate.
  apply slice_ok in Hg as [Hg1 ->].
  destruct (slice (8 + 8 + 16 + 2 + 1) amt packet) as [b| |] eqn:Hb; try discriminate.
  apply slice_ok in Hb as [Hb1 ->].
  unfold expect, from_utf8.
  destruct (utf8_valid (sub (8 + 8 + 16 + 2 + 1) amt packet)) eqn:Hu;
    [|discriminate].
  intros H; inversion H; subst. simpl in *. repeat split; auto; lia.
Qed.

Lemma decode_pong_valid h port packet amt src :
  (17 <= List.length packet)%nat -> (35 <= amt <= List.length packet)%nat ->
  utf8_valid (sub 35 amt packet) = true ->
  decode_pong h port packet amt src =
  Ok (mk_status h port src (i64_from_be_bytes (sub 9 17 packet))
        (sub 35 amt packet)).
Proof.
  intros H1 H2 H3. unfold decode_pong.
  rewrite slice_in by (simpl; lia). simpl res_bind.
  rewrite slice_in by (simpl; lia). simpl res_bind.
  unfold expect, from_utf8. simpl. rewrite H3. reflexivity.
Qed.

Lemma decode_pong_invalid h port packet amt src :
  (17 <= List.length packet)%nat -> (35 <= amt <= List.length packet)%nat ->
  utf8_valid (sub 35 amt packet) = false ->
  decode_pong h port packet amt src = Panic "could not decode server data".
Proof.
  intros H1 H2 H3. unfold decode_pong.
  rewrite slice_in by (simpl; lia). simpl res_bind.
  rewrite slice_in by (simpl; lia). simpl res_bind.
  unfold expect, from_utf8. simpl. rewrite H3. reflexivity.
Qed.

Lemma nth_first9 {A} i (l : list A) d :
  (i < 9)%nat -> nth i (firstn 9 l) d = nth i l d.
Proof.
  intros H. rewrite nth_firstn.
  replace (Nat.ltb i 9) with true by (symmetry; apply Nat.ltb_lt; exact H).
  reflexivity.
Qed.

Lemma recv_buffer_length d : List.length (recv_buffer d) = 1024%nat.
Proof.
  unfold recv_buffer, recv_count.
  rewrite length_app, length_firstn, length_skipn, repeat_length. lia.
Qed.

Lemma recv_buffer_sub i j d :
  (i <= j <= recv_count d)%nat -> sub i j (recv_buffer d) = sub i j d.
Proof.
  intros H. unfold sub, recv_buffer.
  assert (Hl : List.length (firstn (recv_count d) d) = recv_count d).
  { rewrite length_firstn. unfold recv_count in *. lia. }
  rewrite skipn_app, firstn_app.
  rewrite length_skipn, Hl.
  replace (j - i - (recv_count d - i))%nat with 0%nat by lia.
  rewrite firstn_O, app_nil_r.
  rewrite skipn_firstn_comm, firstn_firstn.
  f_equal; lia.
Qed.

Lemma run_status_ok_inv h p w tr st :
  run_status h p w = (tr, Ok st) ->
  exists d src, w_recv w = Some (d, src) /\
    decode_pong h (unwrap_or p 19132) (recv_buffer d) (recv_count d) src = Ok st.
Proof.
  unfold_status.
  destruct (w_bind_ok w); [|discriminate].
  destruct (w_resolve w _); [|discriminate].
  destruct (since_epoch_ms w) as [t| |]; try discriminate.
  destruct (w_send_ok w); [|discriminate].
  destruct (w_recv w) as [[d src]|]; [|discriminate].
  intros H. exists d, src. split; [reflexivity|].
  injection H as _ H. rewrite <- H.
  subst pk. unfold recv_buffer, recv_count. rewrite repeat_length. reflexivity.
Qed.

(** When every socket call succeeds and one datagram [d] arrives from
    [src], the call issues the six socket operations and decodes [d]. *)
Lemma run_status_reach h p w t d src :
  w_bind_ok w = true -> w_resolve w (connect_addr h p) = true ->
  since_epoch_ms w = Ok t -> w_send_ok w = true -> w_recv w = Some (d, src) ->
  run_status h p w =
  ([OpBind; OpConnect (connect_addr h p); OpSetReadTimeout (Some (2, 0));
    OpSetWriteTimeout (Some (2, 0)); OpSend (build_ping t (w_rand w));
    OpRecvFrom 1024],
   decode_pong h (unwrap_or p 19132) (recv_buffer d) (recv_count d) src).
Proof.
  unfold connect_addr. intros Hb Hr Ht Hs Hv.
  unfold_status.
  rewrite Hb, Hr, Ht, Hs, Hv.
  subst pk. unfold recv_buffer, recv_count. rewrite repeat_length. reflexivity.
Qed.

(** Every socket operation a call issues. *)
Lemma run_status_ops h p w o :
  In o (fst (run_status h p w)) ->
  o = OpBind \/ o = OpConnect (connect_addr h p) \/
  o = OpSetReadTimeout (Some (2, 0)) \/ o = OpSetWriteTimeout (Some (2, 0)) \/
  (exists t, since_epoch_ms w = Ok t /\ o = OpSend (build_ping t (w_rand w))) \/
  o = OpRecvFrom 1024.
Proof.
  unfold connect_addr. unfold_status.
  destruct (w_bind_ok w); cbn [fst app In];
    [|intros [H|[]]; auto].
  destruct (w_resolve w _); cbn [fst app In];
    [|intros [H|[H|[]]]; auto].
  destruct (since_epoch_ms w) as [t| |] eqn:Ht; cbn [fst app In];
    try (intros [H|[H|[H|[H|[]]]]]; subst; auto; fail).
  destruct (w_send_ok w); cbn [fst app In].
  - destruct (w_recv w) as [[d src]|]; cbn [fst app In];
      intros [H|[H|[H|[H|[H|[H|[]]]]]]]; subst; rewrite ?repeat_length;
      eauto 10.
  - intros [H|[H|[H|[H|[H|[]]]]]]; subst; eauto 10.
Qed.

(** Layout of the ping built at lines 50-64. *)
Lemma build_ping_layout t g :
  List.length g = 8%nat ->
  List.length (build_ping t g) = 33%nat /\
  nth 0 (build_ping t g) 0 = 1 /\
  sub 1 9 (build_ping t g) = i64_to_be_bytes t /\
  sub 9 25 (build_ping t g) = MAGIC /\
  sub 25 33 (build_ping t g) = g.
Proof.
  intros Hg. unfold build_ping, sub.
  destruct g as [|g0 [|g1 [|g2 [|g3 [|g4 [|g5 [|g6 [|g7 [|]]]]]]]]];
    simpl in Hg; try discriminate.
  repeat split; reflexivity.
Qed.

(** *** [split(";")] and its inverse *)

Lemma split_semi_nonempty s : split_semi s <> [].
Proof.
  induction s as [|c r IH]; simpl; [discriminate|].
  destruct (c =? 59); [discriminate|].
  destruct (split_semi r); discriminate.
Qed.

Lemma split_semi_no_sep s t : In t (split_semi s) -> ~ In 59 t.
Proof.
  revert t. induction s as [|c r IH]; simpl; intros t Ht.
  - destruct Ht as [<-|[]]. simpl; tauto.
  - destruct (c =? 59) eqn:Hc.
    + destruct Ht as [<-|Ht]; [simpl; tauto|auto].
    + destruct (split_semi r) as [|p ps] eqn:Hs.
      * destruct Ht as [<-|[]]. simpl. intros [H|[]].
        subst. discriminate.
      * destruct Ht as [<-|Ht].
        -- simpl. intros [H|H]; [subst; discriminate|].
           apply (IH p); [left; reflexivity|exact H].
        -- apply IH. right; exact Ht.
Qed.

Lemma join_semi_cons c p ps : join_semi ((c :: p) :: ps) = c :: join_semi (p :: ps).
Proof. destruct ps; reflexivity. Qed.

Lemma join_split_semi s : join_semi (split_semi s) = s.
Proof.
  induction s as [|c r IH]; [reflexivity|]. cbn [split_semi].
  destruct (c =? 59) eqn:Hc.
  - apply Z.eqb_eq in Hc. subst.
    destruct (split_semi r) eqn:Hs; [now destruct (split_semi_nonempty r)|].
    simpl. rewrite <- IH. reflexivity.
  - destruct (split_semi r) as [|p ps] eqn:Hs;
      [now destruct (split_semi_nonempty r)|].
    rewrite join_semi_cons. f_equal. exact IH.
Qed.

Lemma split_semi_sep r : split_semi (59 :: r) = [] :: split_semi r.
Proof. reflexivity. Qed.

Lemma split_semi_app p rest :
  ~ In 59 p ->
  split_semi (p ++ rest) =
  match split_semi rest with
  | q :: qs => (p ++ q) :: qs
  | [] => [p]
  end.
Proof.
  induction p as [|c p IH]; intros Hp; simpl.
  - destruct (split_semi rest) eqn:E; [now destruct (split_semi_nonempty rest)|].
    reflexivity.
  - destruct (c =? 59) eqn:Hc.
    + apply Z.eqb_eq in Hc. subst. exfalso; apply Hp; left; reflexivity.
    + rewrite IH by (intro H; apply Hp; right; exact H).
      destruct (split_semi rest) eqn:Hs; reflexivity.
Qed.

Lemma split_join_semi toks :
  toks <> [] -> (forall t, In t toks -> ~ In 59 t) ->
  split_semi (join_semi toks) = toks.
Proof.
  induction toks as [|p ps IH]; intros Hne Hsep; [congruence|].
  destruct ps as [|q qs].
  - simpl. rewrite <- (app_nil_r p), split_semi_app by (apply Hsep; left; auto).
    simpl. rewrite app_nil_r. reflexivity.
  - change (join_semi (p :: q :: qs)) with (p ++ 59 :: join_semi (q :: qs)).
    rewrite split_semi_app by (apply Hsep; left; auto).
    rewrite split_semi_sep.
    rewrite IH; [rewrite app_nil_r; reflexivity|discriminate|].
    intros t Ht; apply Hsep; right; exact Ht.
Qed.

Lemma replace_nth_nth {A} i j (x d : A) l :
  i <> j -> nth j (replace_nth i x l) d = nth j l d.
Proof.
  revert i j. induction l as [|y r IH]; intros i j Hij.
  - destruct i; reflexivity.
  - destruct i, j; simpl; auto; congruence.
Qed.

Lemma replace_nth_in {A} i (x : A) l t :
  In t (replace_nth i x l) -> t = x \/ In t l.
Proof.
  revert i. induction l as [|y r IH]; intros i.
  - destruct i; simpl; tauto.
  - destruct i; simpl; [intros [H|H]; auto|].
    intros [H|H]; auto. destruct (IH i H); auto.
Qed.

Lemma replace_nth_nonempty {A} i (x : A) l : l <> [] -> replace_nth i x l <> [].
Proof. destruct l, i; simpl; congruence. Qed.

Lemma run_status_timeouts h p w d :
  (In (OpSetReadTimeout d) (fst (run_status h p w)) -> d = Some (2, 0)) /\
  (In (OpSetWriteTimeout d) (fst (run_status h p w)) -> d = Some (2, 0)).
Proof.
  split; intros H; apply run_status_ops in H;
    destruct H as [H|[H|[H|[H|[[t [_ H]]|H]]]]]; congruence.
Qed.

(** Whatever the call returns, a successful result comes from the one
    datagram received, decoded at the fixed offsets. *)
Lemma run_status_ok_decoded h p w tr st :
  run_status h p w = (tr, Ok st) ->
  exists d src, w_recv w = Some (d, src) /\ (35 <= recv_count d)%nat /\
    (35 <= List.length d)%nat /\
    st = mk_status h (unwrap_or p 19132) src (i64_from_be_bytes (sub 9 17 d))
           (sub 35 (recv_count d) d).
Proof.
  intros H. apply run_status_ok_inv in H as [d [src [Hv Hd]]].
  apply decode_pong_ok in Hd as [_ [Ha [_ ->]]].
  rewrite recv_buffer_length in Ha.
  exists d, src. split; [exact Hv|].
  assert (Hn : (35 <= recv_count d)%nat) by lia.
  split; [exact Hn|]. split; [unfold recv_count in Hn; lia|].
  rewrite !recv_buffer_sub by lia. reflexivity.
Qed.

(** The golden pong of the protocol documentation decodes into the nine
    documented positions. *)
Example golden_reply_decodes :
  snd (run_status localhost None golden_world) =
  Ok (mkStatus (mkServer localhost 19132 (lit "192.168.1.20:19132") 7 (lit "MCPE")
                  (lit "Dedicated Server", lit "Bedrock level"))
               (mkVersion 475 (lit "1.18.0")) (mkPlayers 5 20)).
Proof. vm_compute. reflexivity. Qed.

(** ** The claims *)

(** C1 (corrected): the server data handed to [mk_status] is bytes
    [35..byte_count) of the reply (id, timestamp, server GUID, magic and a
    2-byte length precede it), where byte_count is the reply length capped
    at the 1024-byte buffer; a reply of fewer than 35 bytes never reaches
    the mapper, and the payload is empty exactly at byte_count = 35. *)
Theorem payload_starts_at_35 h p w tr st :
  run_status h p w = (tr, Ok st) ->
  exists d src, w_recv w = Some (d, src) /\ (35 <= recv_count d)%nat /\
    st = mk_status h (unwrap_or p 19132) src (i64_from_be_bytes (sub 9 17 d))
           (sub 35 (recv_count d) d) /\
    (recv_count d = 35%nat -> sub 35 (recv_count d) d = []).
Proof.
  intros H. apply run_status_ok_decoded in H as [d [src [Hv [Hn [_ ->]]]]].
  exists d, src. repeat split; auto.
  intros E. rewrite E. unfold sub. rewrite Nat.sub_diag. reflexivity.
Qed.

Lemma payload_starts_at_35_witness :
  exists d src, w_recv golden_world = Some (d, src) /\ (35 <= recv_count d)%nat /\
    golden_status = mk_status localhost (unwrap_or None 19132) src
                      (i64_from_be_bytes (sub 9 17 d)) (sub 35 (recv_count d) d) /\
    (recv_count d = 35%nat -> sub 35 (recv_count d) d = []).
Proof.
  apply (payload_starts_at_35 localhost None golden_world
           (fst (run_status localhost None golden_world))).
  vm_compute. reflexivity.
Defined.

(** C1 counterexample: a 41-byte reply whose bytes [35..41) hold
    ["MCPE;x"] yields edition "MCPE", not the empty payload of the claim. *)
Lemma payload_not_empty_at_41 :
  List.length (pong 0 (lit "MCPE;x")) = 41%nat /\
  match snd (run_status (lit "localhost") None (answering (pong 0 (lit "MCPE;x")))) with
  | Ok st => edition (server st) = lit "MCPE" /\ edition (server st) <> []
  | _ => False
  end.
Proof.
  split; [reflexivity|]. vm_compute. split; [reflexivity|discriminate].
Qed.

(** C2 (corrected): once the ping is sent, a reply shorter than 35 bytes
    makes the call panic at the payload slice [packet[35..amt]] (start after
    end; the GUID bytes [9..17) are read inside the zeroed 1024-byte buffer),
    and a reply of 35 to 40 bytes is accepted: the call returns the [Status]
    mapped from bytes [35..len) when they are valid UTF-8, and panics with
    "could not decode server data" when they are not. There is no TooShort. *)
Theorem short_reply_outcome h p w t d src :
  w_bind_ok w = true -> w_resolve w (connect_addr h p) = true ->
  since_epoch_ms w = Ok t -> w_send_ok w = true -> w_recv w = Some (d, src) ->
  ((List.length d < 35)%nat ->
   snd (run_status h p w) = Panic "slice index starts after its end") /\
  ((35 <= List.length d < 41)%nat -> utf8_valid (sub 35 (List.length d) d) = true ->
   snd (run_status h p w) =
     Ok (mk_status h (unwrap_or p 19132) src (i64_from_be_bytes (sub 9 17 d))
           (sub 35 (List.length d) d))) /\
  ((35 <= List.length d < 41)%nat -> utf8_valid (sub 35 (List.length d) d) = false ->
   snd (run_status h p w) = Panic "could not decode server data").
Proof.
  intros Hb Hr Ht Hs Hv.
  rewrite (run_status_reach h p w t d src Hb Hr Ht Hs Hv). simpl snd.
  assert (HL := recv_buffer_length d).
  split; [|split]; intros Hd.
  - unfold decode_pong. rewrite slice_in by (simpl; lia). simpl res_bind.
    unfold slice.
    replace (Nat.leb 35 (recv_count d)) with false.
    + reflexivity.
    + symmetry. apply Nat.leb_gt. unfold recv_count. simpl. lia.
  - intros Hu.
    assert (Hc : recv_count d = List.length d) by (unfold recv_count; lia).
    rewrite <- Hc, <- (recv_buffer_sub 35 (recv_count d) d) in Hu by lia.
    rewrite decode_pong_valid; [|lia|lia|exact Hu].
    rewrite !recv_buffer_sub by lia. rewrite Hc. reflexivity.
  - intros Hu.
    assert (Hc : recv_count d = List.length d) by (unfold recv_count; lia).
    rewrite <- Hc, <- (recv_buffer_sub 35 (recv_count d) d) in Hu by lia.
    apply decode_pong_invalid; auto; lia.
Qed.

(** A 36-byte reply with payload "7" is accepted, and a 20-byte reply
    panics. *)
Lemma short_reply_outcome_witness :
  snd (run_status localhost None (answering (pong 0 (lit "7")))) =
    Ok (mk_status localhost 19132 some_src 0 (lit "7")) /\
  snd (run_status localhost None (answering (firstn 20 (pong 0 [])))) =
    Panic "slice index starts after its end".
Proof.
  split.
  - pose proof (short_reply_outcome localhost None (answering (pong 0 (lit "7")))
                  1700000000000 (pong 0 (lit "7")) some_src
                  eq_refl eq_refl eq_refl eq_refl eq_refl) as [_ [H _]].
    rewrite H; [vm_compute; reflexivity|cbn; lia|
                vm_compute; reflexivity].
  - pose proof (short_reply_outcome localhost None (answering (firstn 20 (pong 0 [])))
                  1700000000000 (firstn 20 (pong 0 [])) some_src
                  eq_refl eq_refl eq_refl eq_refl eq_refl) as [H _].
    apply H. cbn. lia.
Defined.

(** C2 counterexample: a 20-byte reply (between 17 and 41 bytes) neither
    fails with a TooShort error nor yields an empty payload: the call
    panics. *)
Lemma reply_of_20_bytes_panics :
  List.length (firstn 20 (pong 0 [])) = 20%nat /\
  snd (run_status localhost None (answering (firstn 20 (pong 0 [])))) =
  Panic "slice index starts after its end".
Proof. split; vm_compute; reflexivity. Qed.

(** C3: every ping the call sends is 33 bytes: 0x01, the 8-byte big-endian
    timestamp, the 16-byte magic at [9..25), and the 8 random bytes. *)
Theorem ping_is_33_bytes_with_magic h p w buf :
  List.length (w_rand w) = 8%nat ->
  In (OpSend buf) (fst (run_status h p w)) ->
  List.length buf = 33%nat /\ nth 0 buf 0 = 1 /\ sub 9 25 buf = MAGIC /\
  (exists t, since_epoch_ms w = Ok t /\ sub 1 9 buf = i64_to_be_bytes t) /\
  sub 25 33 buf = w_rand w.
Proof.
  intros Hg H. apply run_status_ops in H.
  destruct H as [H|[H|[H|[H|[[t [Ht H]]|H]]]]]; try discriminate.
  injection H as ->.
  destruct (build_ping_layout t (w_rand w) Hg) as [L1 [L2 [L3 [L4 L5]]]].
  repeat split; eauto.
Qed.

Lemma ping_is_33_bytes_with_magic_witness :
  List.length (build_ping 1700000000000 [1; 2; 3; 4; 5; 6; 7; 8]) = 33%nat /\
  nth 0 (build_ping 1700000000000 [1; 2; 3; 4; 5; 6; 7; 8]) 0 = 1 /\
  sub 9 25 (build_ping 1700000000000 [1; 2; 3; 4; 5; 6; 7; 8]) = MAGIC /\
  (exists t, since_epoch_ms golden_world = Ok t /\
     sub 1 9 (build_ping 1700000000000 [1; 2; 3; 4; 5; 6; 7; 8]) = i64_to_be_bytes t) /\
  sub 25 33 (build_ping 1700000000000 [1; 2; 3; 4; 5; 6; 7; 8]) = w_rand golden_world.
Proof.
  apply (ping_is_33_bytes_with_magic localhost None golden_world).
  - reflexivity.
  - vm_compute. right; right; right; right; left; reflexivity.
Defined.

(** C8: the GUID of a returned [Status] is the big-endian signed 64-bit
    integer of reply bytes [9..17). *)
Theorem server_guid_from_bytes_9_17 h p w tr st :
  run_status h p w = (tr, Ok st) ->
  exists d src, w_recv w = Some (d, src) /\ (17 <= List.length d)%nat /\
    guid (server st) = i64_from_be_bytes (sub 9 17 d).
Proof.
  intros H. apply run_status_ok_decoded in H as [d [src [Hv [_ [Hl ->]]]]].
  exists d, src. repeat split; auto. lia.
Qed.

Lemma server_guid_from_bytes_9_17_witness :
  exists d src, w_recv golden_world = Some (d, src) /\ (17 <= List.length d)%nat /\
    guid (server golden_status) = i64_from_be_bytes (sub 9 17 d).
Proof.
  apply (server_guid_from_bytes_9_17 localhost None golden_world
           (fst (run_status localhost None golden_world))).
  vm_compute. reflexivity.
Defined.

(** C10: [remote_host] is the reply's source address rendered as
    ["a.b.c.d:port"], the port included. *)
Theorem remote_host_is_source_address h p w tr st :
  run_status h p w = (tr, Ok st) ->
  exists d src, w_recv w = Some (d, src) /\
    remote_host (server st) =
      int_to_string (ip0 src) ++ [46] ++ int_to_string (ip1 src) ++ [46] ++
      int_to_string (ip2 src) ++ [46] ++ int_to_string (ip3 src) ++ [58] ++
      int_to_string (sport src).
Proof.
  intros H. apply run_status_ok_decoded in H as [d [src [Hv [_ [_ ->]]]]].
  exists d, src. split; [exact Hv|reflexivity].
Qed.

Lemma remote_host_is_source_address_witness :
  exists d src, w_recv golden_world = Some (d, src) /\
    remote_host (server golden_status) =
      int_to_string (ip0 src) ++ [46] ++ int_to_string (ip1 src) ++ [46] ++
      int_to_string (ip2 src) ++ [46] ++ int_to_string (ip3 src) ++ [58] ++
      int_to_string (sport src).
Proof.
  apply (remote_host_is_source_address localhost None golden_world
           (fst (run_status localhost None golden_world))).
  vm_compute. reflexivity.
Defined.

(** C4: the mapper splits the server data on ';' (pieces free of ';' that
    rejoin to the data), keeps at most 9 of them, reads a missing index as
    the empty string, and fills the [Status] from the caller's host and
    port, the source address, the binary GUID and tokens 0, 1, 7, 2, 3, 4
    and 5. *)
Theorem mapper_fields h prt src g data :
  let toks := split_semi data in
  (forall t, In t toks -> ~ In 59 t) /\ join_semi toks = data /\
  (List.length (firstn 9 toks) <= 9)%nat /\
  (forall i, (List.length toks <= i)%nat -> nth i toks [] = []) /\
  let st := mk_status h prt src g data in
  host (server st) = h /\ port (server st) = prt /\
  remote_host (server st) = sock_addr_to_string src /\ guid (server st) = g /\
  edition (server st) = nth 0 toks [] /\
  motd (server st) = (nth 1 toks [], nth 7 toks []) /\
  protocol (version st) = unwrap_or (parse_i32 (nth 2 toks [])) 1 /\
  name (version st) = nth 3 toks [] /\
  online (players st) = unwrap_or (parse_i32 (nth 4 toks [])) (-1) /\
  max (players st) = unwrap_or (parse_i32 (nth 5 toks [])) (-1).
Proof.
  intros toks.
  split; [intros t; apply split_semi_no_sep|].
  split; [apply join_split_semi|].
  split; [apply firstn_le_length|].
  split; [intros i Hi; apply nth_overflow; exact Hi|].
  unfold mk_status; cbn -[firstn nth].
  rewrite !nth_first9 by lia.
  repeat split.
Qed.

(** C5: when the call gets a well-formed reply, a protocol, online or max
    token that does not parse as an [i32] (an absent token included) does
    not fail the call; the field is 1, -1 or -1. *)
Theorem numeric_defaults h p w t d src :
  w_bind_ok w = true -> w_resolve w (connect_addr h p) = true ->
  since_epoch_ms w = Ok t -> w_send_ok w = true -> w_recv w = Some (d, src) ->
  (35 <= recv_count d)%nat -> utf8_valid (sub 35 (recv_count d) d) = true ->
  let toks := split_semi (sub 35 (recv_count d) d) in
  exists st, snd (run_status h p w) = Ok st /\
    (parse_i32 (nth 2 toks []) = None -> protocol (version st) = 1) /\
    (parse_i32 (nth 4 toks []) = None -> online (players st) = -1) /\
    (parse_i32 (nth 5 toks []) = None -> max (players st) = -1) /\
    ((List.length toks <= 2)%nat -> protocol (version st) = 1) /\
    ((List.length toks <= 4)%nat -> online (players st) = -1) /\
    ((List.length toks <= 5)%nat -> max (players st) = -1).
Proof.
  intros Hb Hr Ht Hs Hv Hn Hu toks.
  rewrite (run_status_reach h p w t d src Hb Hr Ht Hs Hv). simpl snd.
  assert (HL := recv_buffer_length d).
  assert (Hc : (recv_count d <= 1024)%nat) by (unfold recv_count; lia).
  rewrite decode_pong_valid; [| lia | lia | rewrite recv_buffer_sub by lia; exact Hu].
  rewrite !recv_buffer_sub by lia.
  eexists; split; [reflexivity|].
  unfold mk_status; cbn -[firstn nth parse_i32]. fold toks.
  rewrite !nth_first9 by lia.
  repeat split; intros H.
  1-3: rewrite H; reflexivity.
  all: rewrite nth_overflow by exact H; reflexivity.
Qed.

Definition bad_numbers_world : world := answering (pong 3 (lit "MCPE;m;abc;v")).

Lemma numeric_defaults_witness :
  let d := pong 3 (lit "MCPE;m;abc;v") in
  let toks := split_semi (sub 35 (recv_count d) d) in
  exists st, snd (run_status localhost None bad_numbers_world) = Ok st /\
    (parse_i32 (nth 2 toks []) = None -> protocol (version st) = 1) /\
    (parse_i32 (nth 4 toks []) = None -> online (players st) = -1) /\
    (parse_i32 (nth 5 toks []) = None -> max (players st) = -1) /\
    ((List.length toks <= 2)%nat -> protocol (version st) = 1) /\
    ((List.length toks <= 4)%nat -> online (players st) = -1) /\
    ((List.length toks <= 5)%nat -> max (players st) = -1).
Proof.
  apply (numeric_defaults localhost None bad_numbers_world 1700000000000
           (pong 3 (lit "MCPE;m;abc;v")) some_src); vm_compute;
    first [reflexivity | lia].
Defined.

(** C6 (corrected): a reply of at least 35 bytes whose payload is not valid
    UTF-8 makes the call panic with "could not decode server data"; no
    error value is returned. *)
Theorem invalid_utf8_panics h p w t d src :
  w_bind_ok w = true -> w_resolve w (connect_addr h p) = true ->
  since_epoch_ms w = Ok t -> w_send_ok w = true -> w_recv w = Some (d, src) ->
  (35 <= recv_count d)%nat -> utf8_valid (sub 35 (recv_count d) d) = false ->
  snd (run_status h p w) = Panic "could not decode server data".
Proof.
  intros Hb Hr Ht Hs Hv Hn Hu.
  rewrite (run_status_reach h p w t d src Hb Hr Ht Hs Hv). simpl snd.
  assert (HL := recv_buffer_length d).
  assert (Hc : (recv_count d <= 1024)%nat) by (unfold recv_count; lia).
  apply decode_pong_invalid; [lia | lia |].
  rewrite recv_buffer_sub by lia. exact Hu.
Qed.

Definition bad_utf8_world : world := answering (pong 0 [0xFF]).

Lemma invalid_utf8_panics_witness :
  snd (run_status localhost None bad_utf8_world) = Panic "could not decode server data".
Proof.
  apply (invalid_utf8_panics localhost None bad_utf8_world 1700000000000
           (pong 0 [0xFF]) some_src); vm_compute; first [reflexivity | lia].
Defined.

(** C6 counterexample: the reply with payload byte 0xFF ends the call in a
    panic, not in a typed error result. *)
Lemma invalid_utf8_is_a_panic :
  utf8_valid [0xFF] = false /\
  snd (run_status localhost None (answering (pong 0 [0xFF]))) =
  Panic "could not decode server data".
Proof. split; vm_compute; reflexivity. Qed.

(** C7 (corrected): once bind and connect succeed, the call sets a read
    and then a write timeout, and every timeout it ever sets is the fixed
    [Duration::new(2, 0)]: [status] takes only the host and the port, so a
    caller cannot choose another timeout. *)
Theorem timeouts_fixed_2s h p w :
  w_bind_ok w = true -> w_resolve w (connect_addr h p) = true ->
  firstn 4 (fst (run_status h p w)) =
    [OpBind; OpConnect (connect_addr h p); OpSetReadTimeout (Some (2, 0));
     OpSetWriteTimeout (Some (2, 0))] /\
  forall d,
    (In (OpSetReadTimeout d) (fst (run_status h p w)) -> d = Some (2, 0)) /\
    (In (OpSetWriteTimeout d) (fst (run_status h p w)) -> d = Some (2, 0)).
Proof.
  intros Hb Hr. split; [|intros d; apply run_status_timeouts].
  unfold connect_addr in *. unfold_status.
  rewrite Hb, Hr.
  destruct (since_epoch_ms w); [|reflexivity|reflexivity].
  destruct (w_send_ok w); [|reflexivity].
  destruct (w_recv w) as [[d src]|]; reflexivity.
Qed.

Lemma timeouts_fixed_2s_witness :
  firstn 4 (fst (run_status localhost (Some 19133) golden_world)) =
    [OpBind; OpConnect (connect_addr localhost (Some 19133));
     OpSetReadTimeout (Some (2, 0)); OpSetWriteTimeout (Some (2, 0))] /\
  forall d,
    (In (OpSetReadTimeout d) (fst (run_status localhost (Some 19133) golden_world)) ->
     d = Some (2, 0)) /\
    (In (OpSetWriteTimeout d) (fst (run_status localhost (Some 19133) golden_world)) ->
     d = Some (2, 0)).
Proof.
  apply (timeouts_fixed_2s localhost (Some 19133) golden_world); reflexivity.
Defined.

(** C7 counterexample: no host, port or environment makes the call set a
    read timeout other than 2 seconds (for instance 5 seconds). *)
Lemma read_timeout_not_configurable :
  ~ exists h p w, In (OpSetReadTimeout (Some (5, 0))) (fst (run_status h p w)).
Proof.
  intros [h [p [w H]]].
  apply (proj1 (run_status_timeouts h p w (Some (5, 0)))) in H.
  discriminate.
Qed.

(** C9 (corrected): the server-unique-id token (index 6) never makes the
    mapper fail, whether or not it equals the binary GUID: replacing it by
    any other token leaves the [Status] unchanged.  The [Status] carries
    the binary GUID only; token 6 is not part of the result. *)
Theorem unique_id_token_ignored h prt src g data t6 :
  ~ In 59 t6 ->
  mk_status h prt src g (join_semi (replace_nth 6 t6 (split_semi data))) =
  mk_status h prt src g data /\
  guid (server (mk_status h prt src g data)) = g.
Proof.
  intros Ht6. split; [|reflexivity].
  unfold mk_status. rewrite split_join_semi.
  - cbn -[firstn nth parse_i32 replace_nth split_semi].
    rewrite !nth_first9 by lia.
    rewrite !replace_nth_nth by discriminate.
    reflexivity.
  - apply replace_nth_nonempty, split_semi_nonempty.
  - intros t Ht. apply replace_nth_in in Ht as [->|Ht]; [exact Ht6|].
    exact (split_semi_no_sep data t Ht).
Qed.

Lemma unique_id_token_ignored_witness :
  mk_status localhost 19132 some_src 7
    (join_semi (replace_nth 6 (lit "99") (split_semi golden_data))) =
  mk_status localhost 19132 some_src 7 golden_data /\
  guid (server (mk_status localhost 19132 some_src 7 golden_data)) = 7.
Proof.
  apply (unique_id_token_ignored localhost 19132 some_src 7 golden_data (lit "99")).
  vm_compute. intros [H|[H|[]]]; discriminate.
Defined.

(** C9 counterexample: two payloads that differ only in token 6 give the
    same [Status], so no function of the result recovers token 6. *)
Lemma unique_id_not_exposed :
  ~ exists f : Status -> bytes, forall data,
      f (mk_status localhost 19132 some_src 0 data) = nth 6 (split_semi data) [].
Proof.
  intros [f Hf].
  pose proof (Hf (lit "a;b;1;c;2;3;111;m")) as H1.
  pose proof (Hf (lit "a;b;1;c;2;3;222;m")) as H2.
  assert (E : mk_status localhost 19132 some_src 0 (lit "a;b;1;c;2;3;111;m") =
              mk_status localhost 19132 some_src 0 (lit "a;b;1;c;2;3;222;m"))
    by (vm_compute; reflexivity).
  rewrite E, H2 in H1. vm_compute in H1. discriminate.
Qed.

(** ** Further properties of [status] *)

(** *** Integer encodings *)
Lemma be_step u k : 0 <= u -> 0 <= k ->
  u / 2 ^ (k + 8) * 256 + (u / 2 ^ k) mod 256 = u / 2 ^ k.
Proof.
  intros Hu Hk. rewrite Z.pow_add_r by lia.
  rewrite <- Z.div_div by lia.
  change (2 ^ 8) with 256.
  rewrite Z.mul_comm. symmetry. apply Z.div_mod. lia.
Qed.

Lemma i64_from_to_be x :
  - 2 ^ 63 <= x < 2 ^ 63 -> i64_from_be_bytes (i64_to_be_bytes x) = x.
Proof.
  intros Hx. unfold i64_from_be_bytes, i64_to_be_bytes.
  set (u := x mod 2 ^ 64).
  assert (Hu : 0 <= u < 2 ^ 64) by (apply Z.mod_pos_bound; lia).
  assert (Hf : forall k, 0 <= k -> Z.land (Z.shiftr u k) 255 = (u / 2 ^ k) mod 256).
  { intros k Hk. rewrite Z.shiftr_div_pow2 by lia.
    change 255 with (Z.ones 8). rewrite Z.land_ones by lia. reflexivity. }
  cbn [map fold_left].
  rewrite !Hf by lia.
  assert (Htop : (u / 2 ^ (8 * 7)) mod 256 = u / 2 ^ (8 * 7)).
  { apply Z.mod_small. split; [apply Z.div_pos; lia|].
    apply Z.div_lt_upper_bound; [lia|]. change (2 ^ (8 * 7) * 256) with (2 ^ 64). lia. }
  rewrite Htop.
  replace (0 * 256 + u / 2 ^ (8 * 7)) with (u / 2 ^ (8 * 6 + 8)) by (simpl; lia).
  rewrite be_step by lia.
  replace (8 * 6) with (8 * 5 + 8) by lia. rewrite be_step by lia.
  replace (8 * 5) with (8 * 4 + 8) by lia. rewrite be_step by lia.
  replace (8 * 4) with (8 * 3 + 8) by lia. rewrite be_step by lia.
  replace (8 * 3) with (8 * 2 + 8) by lia. rewrite be_step by lia.
  replace (8 * 2) with (8 * 1 + 8) by lia. rewrite be_step by lia.
  replace (8 * 1) with (8 * 0 + 8) by lia. rewrite be_step by lia.
  replace (8 * 0) with 0 by lia. rewrite Z.pow_0_r, Z.div_1_r.
  subst u. destruct (Z.ltb_spec (x mod 2 ^ 64) (2 ^ 63)).
  - destruct (Z.le_gt_cases 0 x).
    + rewrite Z.mod_small by lia. reflexivity.
    + exfalso. rewrite <- (Z.mod_unique x (2^64) (-1) (x + 2^64)) in H by lia. lia.
  - destruct (Z.le_gt_cases 0 x).
    + rewrite Z.mod_small in H by lia. lia.
    + rewrite <- (Z.mod_unique x (2^64) (-1) (x + 2^64)) by lia. lia.
Qed.

Lemma acc_pos_app r l1 l2 :
  acc_pos r (l1 ++ l2) =
  match acc_pos r l1 with Some r' => acc_pos r' l2 | None => None end.
Proof.
  revert r. induction l1 as [|c l IH]; intros r; simpl; [reflexivity|].
  destruct (to_digit c); [|reflexivity].
  destruct (_ <=? i32_max); [apply IH|reflexivity].
Qed.

Lemma acc_neg_app r l1 l2 :
  acc_neg r (l1 ++ l2) =
  match acc_neg r l1 with Some r' => acc_neg r' l2 | None => None end.
Proof.
  revert r. induction l1 as [|c l IH]; intros r; simpl; [reflexivity|].
  destruct (to_digit c); [|reflexivity].
  destruct (i32_min <=? _); [apply IH|reflexivity].
Qed.

Lemma to_digit_dec d : 0 <= d < 10 -> to_digit (48 + d) = Some d.
Proof.
  intros H. unfold to_digit.
  replace ((48 <=? 48 + d) && (48 + d <=? 57)) with true
    by (symmetry; apply andb_true_iff; split; apply Z.leb_le; lia).
  f_equal; lia.
Qed.

Lemma acc_pos_udec f n :
  0 <= n < 10 ^ Z.of_nat f -> n <= i32_max -> acc_pos 0 (udec f n) = Some n.
Proof.
  revert n. induction f as [|f IH]; intros n Hn Hm.
  - simpl in Hn. replace n with 0 by lia. reflexivity.
  - cbn [udec]. destruct (Z.ltb_spec n 10).
    + cbn [acc_pos]. rewrite to_digit_dec by lia.
      replace (0 * 10 + n <=? i32_max) with true by (symmetry; apply Z.leb_le; lia).
      f_equal; lia.
    + rewrite acc_pos_app, IH.
      * cbn [acc_pos acc_neg]. rewrite to_digit_dec by (apply Z.mod_pos_bound; lia).
        rewrite Z.mul_comm, <- Z.div_mod by lia.
        replace (n <=? i32_max) with true by (symmetry; apply Z.leb_le; lia).
        reflexivity.
      * split; [apply Z.div_pos; lia|]. apply Z.div_lt_upper_bound; [lia|].
        rewrite Nat2Z.inj_succ, Z.pow_succ_r in Hn by lia. lia.
      * assert (n / 10 <= n) by (apply Z.div_le_upper_bound; lia). lia.
Qed.

Lemma acc_neg_udec f n :
  0 <= n < 10 ^ Z.of_nat f -> i32_min <= - n -> acc_neg 0 (udec f n) = Some (- n).
Proof.
  revert n. induction f as [|f IH]; intros n Hn Hm.
  - simpl in Hn. replace n with 0 by lia. reflexivity.
  - cbn [udec]. destruct (Z.ltb_spec n 10).
    + cbn [acc_neg]. rewrite to_digit_dec by lia.
      replace (i32_min <=? 0 * 10 - n) with true by (symmetry; apply Z.leb_le; lia).
      f_equal; lia.
    + rewrite acc_neg_app, IH.
      * cbn [acc_pos acc_neg]. rewrite to_digit_dec by (apply Z.mod_pos_bound; lia).
        replace (- (n / 10) * 10 - n mod 10) with (- n)
          by (pose proof (Z.div_mod n 10); lia).
        replace (i32_min <=? - n) with true by (symmetry; apply Z.leb_le; lia).
        reflexivity.
      * split; [apply Z.div_pos; lia|]. apply Z.div_lt_upper_bound; [lia|].
        rewrite Nat2Z.inj_succ, Z.pow_succ_r in Hn by lia. lia.
      * assert (n / 10 <= n) by (apply Z.div_le_upper_bound; lia). lia.
Qed.

Lemma udec_digits f n : 0 <= n -> forall c, In c (udec f n) -> 48 <= c <= 57.
Proof.
  revert n. induction f as [|f IH]; intros n Hn c Hc; cbn [udec In] in Hc; [contradiction|].
  destruct (n <? 10) eqn:E.
  - apply Z.ltb_lt in E. destruct Hc as [<-|[]]. lia.
  - apply in_app_or in Hc as [Hc|[<-|[]]].
    + apply (IH (n / 10)); [apply Z.div_pos; lia|exact Hc].
    + pose proof (Z.mod_pos_bound n 10 ltac:(lia)). lia.
Qed.

Lemma udec_nonempty f n : udec (S f) n <> [].
Proof.
  simpl. destruct (n <? 10); [discriminate|].
  intros H. apply app_eq_nil in H as [_ H]. discriminate.
Qed.

Lemma parse_int_to_string z :
  i32_min <= z <= i32_max -> parse_i32 (int_to_string z) = Some z.
Proof.
  intros Hz. unfold i32_min, i32_max in *.
  assert (Hp : 2 ^ 31 < 10 ^ Z.of_nat 20) by (vm_compute; reflexivity).
  unfold int_to_string. destruct (Z.ltb_spec z 0).
  - destruct (udec 20 (- z)) as [|c rest] eqn:E; [now apply udec_nonempty in E|].
    assert (Hn : parse_i32 (45 :: c :: rest) = acc_neg 0 (c :: rest))
      by (destruct rest; reflexivity).
    rewrite Hn, <- E, acc_neg_udec by (unfold i32_min; lia).
    f_equal; lia.
  - destruct (udec 20 z) as [|c rest] eqn:E; [now apply udec_nonempty in E|].
    assert (Hc : 48 <= c <= 57)
      by (apply (udec_digits 20 z); [lia|rewrite E; left; reflexivity]).
    assert (Hn : parse_i32 (c :: rest) = acc_pos 0 (c :: rest)).
    { unfold parse_i32.
      replace (c =? 43) with false by (symmetry; apply Z.eqb_neq; lia).
      replace (c =? 45) with false by (symmetry; apply Z.eqb_neq; lia).
      reflexivity. }
    rewrite Hn, <- E. apply acc_pos_udec; unfold i32_max; lia.
Qed.

Lemma since_epoch_ms_ok w t :
  since_epoch_ms w = Ok t <-> 0 <= w_now_ms w <= 2 ^ 63 - 1 /\ t = w_now_ms w.
Proof.
  unfold since_epoch_ms.
  destruct (Z.ltb_spec (w_now_ms w) 0); [split; [discriminate|lia]|].
  destruct (Z.leb_spec (w_now_ms w) (2 ^ 63 - 1)); [|split; [discriminate|lia]].
  split; [intros E; injection E as <-; lia|intros [_ ->]; reflexivity].
Qed.

Lemma run_status_ok_pre h p w st :
  snd (run_status h p w) = Ok st ->
  w_bind_ok w = true /\ w_resolve w (connect_addr h p) = true /\
  (exists t, since_epoch_ms w = Ok t) /\ w_send_ok w = true.
Proof.
  unfold connect_addr. unfold_status.
  destruct (w_bind_ok w); [|discriminate].
  destruct (w_resolve w _); [|discriminate].
  destruct (since_epoch_ms w) as [t| |]; try discriminate.
  destruct (w_send_ok w); [|discriminate].
  intros _. eauto.
Qed.

Lemma decode_pong_not_err h port packet amt src e :
  decode_pong h port packet amt src <> Err e.
Proof.
  unfold decode_pong, res_bind, slice, expect, from_utf8.
  repeat match goal with
         | |- context [if ?b then _ else _] => destruct b
         end; discriminate.
Qed.

(** *** Outcomes of the call *)

(** X1: the call returns a [Status] exactly when every socket call
    succeeds, the clock reading fits an [i64], the reply has at least 35
    bytes and its payload is valid UTF-8; the [Status] is then the mapped
    payload. *)
Theorem status_ok_iff h p w st :
  snd (run_status h p w) = Ok st <->
  w_bind_ok w = true /\ w_resolve w (connect_addr h p) = true /\
  0 <= w_now_ms w <= 2 ^ 63 - 1 /\ w_send_ok w = true /\
  exists d src, w_recv w = Some (d, src) /\ (35 <= List.length d)%nat /\
    utf8_valid (sub 35 (recv_count d) d) = true /\
    st = mk_status h (unwrap_or p 19132) src (i64_from_be_bytes (sub 9 17 d))
           (sub 35 (recv_count d) d).
Proof.
  split.
  - intros H.
    destruct (run_status_ok_pre h p w st H) as [Hb [Hr [[t Ht] Hs]]].
    pose proof Ht as Ht'. apply since_epoch_ms_ok in Ht' as [Hn _].
    assert (Hrun : run_status h p w = (fst (run_status h p w), Ok st))
      by (rewrite <- H; apply surjective_pairing).
    destruct (run_status_ok_decoded h p w _ st Hrun)
      as [d [src [Hv [Hc [Hl Est]]]]].
    split; [exact Hb|]. split; [exact Hr|]. split; [lia|]. split; [exact Hs|].
    exists d, src. split; [exact Hv|]. split; [exact Hl|]. split; [|exact Est].
    rewrite (run_status_reach h p w t d src Hb Hr Ht Hs Hv) in H. simpl in H.
    apply decode_pong_ok in H as [_ [Ha [Hu _]]].
    rewrite recv_buffer_length in Ha.
    rewrite recv_buffer_sub in Hu by lia. exact Hu.
  - intros [Hb [Hr [Hn [Hs [d [src [Hv [Hl [Hu ->]]]]]]]]].
    assert (Ht : since_epoch_ms w = Ok (w_now_ms w)) by (apply since_epoch_ms_ok; lia).
    rewrite (run_status_reach h p w _ d src Hb Hr Ht Hs Hv). simpl snd.
    assert (HL := recv_buffer_length d).
    assert (Hc : (35 <= recv_count d <= 1024)%nat) by (unfold recv_count; lia).
    rewrite decode_pong_valid; [| lia | lia | rewrite recv_buffer_sub by lia; exact Hu].
    rewrite !recv_buffer_sub by lia. reflexivity.
Qed.

Lemma status_ok_iff_witness :
  snd (run_status localhost None golden_world) = Ok golden_status.
Proof.
  apply (proj2 (status_ok_iff localhost None golden_world golden_status)).
  split; [reflexivity|]. split; [reflexivity|]. split; [vm_compute; split; discriminate|].
  split; [reflexivity|].
  exists (pong 7 golden_data), some_src.
  split; [reflexivity|]. split; [vm_compute; lia|].
  split; vm_compute; reflexivity.
Defined.

(** X2: when no datagram comes back (receive timeout or error), the call
    has bound, connected, set both timeouts, sent one ping and tried one
    receive, and then panics with "could not get status" (the behaviour
    the test [test_fake_server] expects). *)
Theorem no_reply_panics h p w t :
  w_bind_ok w = true -> w_resolve w (connect_addr h p) = true ->
  since_epoch_ms w = Ok t -> w_send_ok w = true -> w_recv w = None ->
  run_status h p w =
  ([OpBind; OpConnect (connect_addr h p); OpSetReadTimeout (Some (2, 0));
    OpSetWriteTimeout (Some (2, 0)); OpSend (build_ping t (w_rand w));
    OpRecvFrom 1024],
   Panic "could not get status").
Proof.
  unfold connect_addr. intros Hb Hr Ht Hs Hv.
  unfold_status. rewrite Hb, Hr, Ht, Hs, Hv.
  subst pk. rewrite repeat_length. reflexivity.
Qed.

Definition silent_world : world :=
  mkWorld true (fun _ => true) 1700000000000 [1; 2; 3; 4; 5; 6; 7; 8] true None.

Lemma no_reply_panics_witness :
  run_status localhost None silent_world =
  ([OpBind; OpConnect (connect_addr localhost None); OpSetReadTimeout (Some (2, 0));
    OpSetWriteTimeout (Some (2, 0));
    OpSend (build_ping 1700000000000 (w_rand silent_world)); OpRecvFrom 1024],
   Panic "could not get status").
Proof. apply no_reply_panics; reflexivity. Defined.

(** X3: if the local socket cannot be bound, the call panics with "could not
    bind to local address" before any other socket operation. *)
Theorem bind_failure_panics h p w :
  w_bind_ok w = false ->
  run_status h p w = ([OpBind], Panic "could not bind to local address").
Proof. intros Hb. unfold_status. rewrite Hb. reflexivity. Qed.

Lemma bind_failure_panics_witness :
  run_status localhost None
    (mkWorld false (fun _ => true) 0 [] true None) =
  ([OpBind], Panic "could not bind to local address").
Proof. apply bind_failure_panics; reflexivity. Defined.

(** X4: if connecting to ["host:port"] fails (for instance the name does
    not resolve), the call panics with "connection with server failed";
    no timeout is set and nothing is sent. *)
Theorem connect_failure_panics h p w :
  w_bind_ok w = true -> w_resolve w (connect_addr h p) = false ->
  run_status h p w =
  ([OpBind; OpConnect (connect_addr h p)], Panic "connection with server failed").
Proof.
  unfold connect_addr. intros Hb Hr. unfold_status. rewrite Hb, Hr. reflexivity.
Qed.

Lemma connect_failure_panics_witness :
  run_status localhost None (mkWorld true (fun _ => false) 0 [] true None) =
  ([OpBind; OpConnect (connect_addr localhost None)],
   Panic "connection with server failed").
Proof. apply connect_failure_panics; reflexivity. Defined.

(** X5: the call returns an error value (rather than a [Status] or a panic)
    exactly when the socket is set up and the clock reading is unusable:
    before the epoch ([SystemTimeError]) or beyond [i64] milliseconds
    ([TryFromIntError]); no ping is sent then. *)
Theorem status_err_iff h p w e :
  (snd (run_status h p w) = Err e <->
   w_bind_ok w = true /\ w_resolve w (connect_addr h p) = true /\
   ((w_now_ms w < 0 /\ e = SystemTimeError) \/
    (2 ^ 63 - 1 < w_now_ms w /\ e = TryFromIntError))) /\
  (snd (run_status h p w) = Err e ->
   forall buf, ~ In (OpSend buf) (fst (run_status h p w))).
Proof.
  unfold connect_addr. unfold_status. unfold since_epoch_ms.
  destruct (w_bind_ok w); cbn [fst snd];
    [|split; [split; [discriminate|intros [H _]; discriminate]|discriminate]].
  destruct (w_resolve w _); cbn [fst snd];
    [|split; [split; [discriminate|intros [_ [H _]]; discriminate]|discriminate]].
  destruct (Z.ltb_spec (w_now_ms w) 0); cbn [fst snd].
  - split.
    + split; [intros E; injection E as <-; auto|].
      intros [_ [_ [[_ ->]|[H' _]]]]; [reflexivity|lia].
    + intros _ buf. simpl. intros [H'|[H'|[H'|[H'|[]]]]]; discriminate.
  - destruct (Z.leb_spec (w_now_ms w) (2 ^ 63 - 1)); cbn [fst snd].
    + split.
      * split; [|intros [_ [_ [[H' _]|[H' _]]]]; lia].
        intros E.
        destruct (w_send_ok w); [destruct (w_recv w) as [[d src]|]|];
          cbn -[decode_pong] in E; try discriminate.
        destruct (decode_pong_not_err _ _ _ _ _ _ E).
      * intros E. exfalso.
        destruct (w_send_ok w); [destruct (w_recv w) as [[d src]|]|];
          cbn -[decode_pong] in E; try discriminate.
        destruct (decode_pong_not_err _ _ _ _ _ _ E).
    + split.
      * split; [intros E; injection E as <-; auto|].
        intros [_ [_ [[H' _]|[_ ->]]]]; [lia|reflexivity].
      * intros _ buf. simpl. intros [H'|[H'|[H'|[H'|[]]]]]; discriminate.
Qed.

Lemma status_err_iff_witness :
  snd (run_status localhost None (mkWorld true (fun _ => true) (-1) [] true None)) =
  Err SystemTimeError.
Proof.
  apply (proj2 (proj1 (status_err_iff localhost None
                         (mkWorld true (fun _ => true) (-1) [] true None) SystemTimeError))).
  split; [reflexivity|]. split; [reflexivity|]. left. split; reflexivity.
Defined.

(** X6: if the ping cannot be sent, the call panics with "could not send
    message" and never waits for a reply. *)
Theorem send_failure_panics h p w t :
  w_bind_ok w = true -> w_resolve w (connect_addr h p) = true ->
  since_epoch_ms w = Ok t -> w_send_ok w = false ->
  run_status h p w =
  ([OpBind; OpConnect (connect_addr h p); OpSetReadTimeout (Some (2, 0));
    OpSetWriteTimeout (Some (2, 0)); OpSend (build_ping t (w_rand w))],
   Panic "could not send message").
Proof.
  unfold connect_addr. intros Hb Hr Ht Hs.
  unfold_status. rewrite Hb, Hr, Ht, Hs. reflexivity.
Qed.

Lemma send_failure_panics_witness :
  run_status localhost None (mkWorld true (fun _ => true) 5 [9; 9] false None) =
  ([OpBind; OpConnect (connect_addr localhost None); OpSetReadTimeout (Some (2, 0));
    OpSetWriteTimeout (Some (2, 0)); OpSend (build_ping 5 [9; 9])],
   Panic "could not send message").
Proof. apply send_failure_panics; reflexivity. Defined.

(** X7: the socket operations come in the order bind, connect, read
    timeout, write timeout, send, receive, and the call stops at the first
    failure: a failed bind leaves only the bind, a failed connect leaves bind
    and connect, an unusable clock reading leaves the four set-up operations,
    a failed send ends at the send; otherwise all six happen, with one ping
    (carrying the clock reading) and one receive. *)
Theorem socket_ops_in_order h p w :
  let ops t := [OpBind; OpConnect (connect_addr h p); OpSetReadTimeout (Some (2, 0));
                OpSetWriteTimeout (Some (2, 0)); OpSend (build_ping t (w_rand w));
                OpRecvFrom 1024] in
  let tr := fst (run_status h p w) in
  (w_bind_ok w = false -> tr = firstn 1 (ops 0)) /\
  (w_bind_ok w = true -> w_resolve w (connect_addr h p) = false ->
     tr = firstn 2 (ops 0)) /\
  (w_bind_ok w = true -> w_resolve w (connect_addr h p) = true ->
     (forall t, since_epoch_ms w <> Ok t) -> tr = firstn 4 (ops 0)) /\
  (forall t, w_bind_ok w = true -> w_resolve w (connect_addr h p) = true ->
     since_epoch_ms w = Ok t -> w_send_ok w = false -> tr = firstn 5 (ops t)) /\
  (forall t, w_bind_ok w = true -> w_resolve w (connect_addr h p) = true ->
     since_epoch_ms w = Ok t -> w_send_ok w = true -> tr = ops t).
Proof.
  intros ops tr. subst ops tr. unfold connect_addr. unfold_status.
  repeat split.
  - intros Hb. rewrite Hb. reflexivity.
  - intros Hb Hr. rewrite Hb, Hr. reflexivity.
  - intros Hb Hr Ht. rewrite Hb, Hr.
    destruct (since_epoch_ms w) as [t| |]; [exfalso; exact (Ht t eq_refl)|..];
      reflexivity.
  - intros t Hb Hr Ht Hs. rewrite Hb, Hr, Ht, Hs. reflexivity.
  - intros t Hb Hr Ht Hs. rewrite Hb, Hr, Ht, Hs.
    subst pk. rewrite repeat_length.
    destruct (w_recv w) as [[d src]|]; reflexivity.
Qed.

Definition early_clock_world : world :=
  mkWorld true (fun _ => true) (-1) [1; 2; 3; 4; 5; 6; 7; 8] true None.

Lemma socket_ops_in_order_witness :
  fst (run_status localhost None early_clock_world) =
  [OpBind; OpConnect (connect_addr localhost None); OpSetReadTimeout (Some (2, 0));
   OpSetWriteTimeout (Some (2, 0))].
Proof.
  pose proof (socket_ops_in_order localhost None early_clock_world) as H.
  cbv zeta in H. destruct H as [_ [_ [H _]]].
  apply H; [reflexivity|reflexivity|intros t E; discriminate E].
Defined.

Lemma build_ping_timestamp t g : sub 1 9 (build_ping t g) = i64_to_be_bytes t.
Proof. reflexivity. Qed.

(** X8: the 8 timestamp bytes [1..9) of every ping sent decode, as a
    big-endian [i64], to the clock reading in milliseconds. *)
Theorem ping_timestamp_roundtrip h p w buf :
  In (OpSend buf) (fst (run_status h p w)) ->
  i64_from_be_bytes (sub 1 9 buf) = w_now_ms w.
Proof.
  intros H. apply run_status_ops in H.
  destruct H as [H|[H|[H|[H|[[t [Ht H]]|H]]]]]; try discriminate.
  injection H as ->. apply since_epoch_ms_ok in Ht as [Hr ->].
  rewrite build_ping_timestamp. apply i64_from_to_be. lia.
Qed.

Lemma ping_timestamp_roundtrip_witness :
  i64_from_be_bytes (sub 1 9 (build_ping 1700000000000 [1; 2; 3; 4; 5; 6; 7; 8])) =
  w_now_ms golden_world.
Proof.
  apply (ping_timestamp_roundtrip localhost None golden_world).
  vm_compute. right; right; right; right; left; reflexivity.
Defined.

(** X9: when the reply carries [i64::to_be_bytes(g)] at bytes [9..17), the
    [Status] of a successful call has server GUID [g], negative values
    included. *)
Theorem server_guid_roundtrip h p w st d src g :
  snd (run_status h p w) = Ok st -> w_recv w = Some (d, src) ->
  - 2 ^ 63 <= g < 2 ^ 63 -> sub 9 17 d = i64_to_be_bytes g ->
  guid (server st) = g.
Proof.
  intros H Hv Hg Hd.
  assert (Hrun : run_status h p w = (fst (run_status h p w), Ok st))
    by (rewrite <- H; apply surjective_pairing).
  destruct (run_status_ok_decoded h p w _ st Hrun) as [d' [src' [Hv' [_ [_ ->]]]]].
  rewrite Hv in Hv'. injection Hv' as <- <-.
  simpl. rewrite Hd. apply i64_from_to_be. exact Hg.
Qed.

Definition negative_guid_world : world := answering (pong (-5) golden_data).

Lemma server_guid_roundtrip_witness :
  guid (server (mk_status localhost 19132 some_src (-5) golden_data)) = -5.
Proof.
  apply (server_guid_roundtrip localhost None negative_guid_world _
           (pong (-5) golden_data) some_src).
  - vm_compute. reflexivity.
  - reflexivity.
  - lia.
  - vm_compute. reflexivity.
Defined.

(** X10: a protocol, online or max token that is the decimal rendering of
    an [i32] value [n] (with a leading '-' when negative) yields [n]. *)
Theorem numeric_token_roundtrip h prt src g data n :
  i32_min <= n <= i32_max ->
  let toks := split_semi data in
  let st := mk_status h prt src g data in
  (nth 2 toks [] = int_to_string n -> protocol (version st) = n) /\
  (nth 4 toks [] = int_to_string n -> online (players st) = n) /\
  (nth 5 toks [] = int_to_string n -> max (players st) = n).
Proof.
  intros Hn toks st. subst st.
  unfold mk_status; cbn -[firstn nth parse_i32]. fold toks.
  rewrite !nth_first9 by lia.
  repeat split; intros E; rewrite E, parse_int_to_string by exact Hn; reflexivity.
Qed.

Lemma numeric_token_roundtrip_witness :
  (nth 2 (split_semi golden_data) [] = int_to_string 475 ->
   protocol (version golden_status) = 475) /\
  (nth 4 (split_semi golden_data) [] = int_to_string 475 ->
   online (players golden_status) = 475) /\
  (nth 5 (split_semi golden_data) [] = int_to_string 475 ->
   max (players golden_status) = 475).
Proof.
  apply (numeric_token_roundtrip localhost 19132 some_src 7 golden_data 475).
  unfold i32_min, i32_max. lia.
Defined.

Lemma decode_pong_recv h port d src :
  (35 <= recv_count d)%nat ->
  decode_pong h port (recv_buffer d) (recv_count d) src =
  if utf8_valid (sub 35 (recv_count d) d)
  then Ok (mk_status h port src (i64_from_be_bytes (sub 9 17 d)) (sub 35 (recv_count d) d))
  else Panic "could not decode server data".
Proof.
  intros H. assert (HL := recv_buffer_length d).
  assert (Hm : (recv_count d <= 1024)%nat) by (unfold recv_count; lia).
  destruct (utf8_valid (sub 35 (recv_count d) d)) eqn:Hu.
  - rewrite decode_pong_valid; [rewrite !recv_buffer_sub by lia; reflexivity|lia|lia|].
    rewrite recv_buffer_sub by lia. exact Hu.
  - apply decode_pong_invalid; [lia|lia|]. rewrite recv_buffer_sub by lia. exact Hu.
Qed.

Lemma sub_after_header (a g b rest : bytes) n :
  List.length a = 9%nat -> List.length g = 8%nat -> List.length b = 18%nat ->
  sub 9 17 (a ++ g ++ b ++ rest) = g /\ sub 35 n (a ++ g ++ b ++ rest) = firstn (n - 35) rest.
Proof.
  intros Ha Hg Hb. unfold sub. split.
  - rewrite skipn_app, skipn_all2, Ha by lia. cbn [app Nat.sub skipn].
    rewrite firstn_app, firstn_all2, Hg by lia.
    replace (17 - 9 - 8)%nat with 0%nat by lia. rewrite firstn_O, app_nil_r. reflexivity.
  - rewrite !app_assoc, skipn_app, skipn_all2 by (rewrite !length_app; lia).
    rewrite !length_app, Ha, Hg, Hb. cbn [app Nat.sub Nat.add]. reflexivity.
Qed.

(** X11: the reply is never checked against the ping: its packet id
    (byte 0), echoed timestamp [1..9), magic [17..33) and length field
    [33..35) are never read, so two replies that differ only there give the
    call the same trace and the same outcome. *)
Theorem reply_header_unchecked h p w (a1 a2 g b1 b2 rest : bytes) src :
  List.length a1 = 9%nat -> List.length a2 = 9%nat -> List.length g = 8%nat ->
  List.length b1 = 18%nat -> List.length b2 = 18%nat ->
  run_status h p (with_reply w (Some (a1 ++ g ++ b1 ++ rest, src))) =
  run_status h p (with_reply w (Some (a2 ++ g ++ b2 ++ rest, src))).
Proof.
  intros Ha1 Ha2 Hg Hb1 Hb2. unfold_status. unfold since_epoch_ms, with_reply.
  cbn [w_bind_ok w_resolve w_recv w_send_ok w_now_ms w_rand].
  destruct (w_bind_ok w); [|reflexivity].
  destruct (w_resolve w _); [|reflexivity].
  destruct (w_now_ms w <? 0); [reflexivity|].
  destruct (w_now_ms w <=? 2 ^ 63 - 1); [|reflexivity].
  destruct (w_send_ok w); [|reflexivity].
  subst pk. rewrite repeat_length. unfold mbind. cbv beta iota zeta.
  fold (recv_count (a1 ++ g ++ b1 ++ rest)) (recv_count (a2 ++ g ++ b2 ++ rest)).
  fold (recv_buffer (a1 ++ g ++ b1 ++ rest)) (recv_buffer (a2 ++ g ++ b2 ++ rest)).
  f_equal.
  assert (Hc : recv_count (a1 ++ g ++ b1 ++ rest) = recv_count (a2 ++ g ++ b2 ++ rest))
    by (unfold recv_count; rewrite !length_app; lia).
  assert (H35 : (35 <= recv_count (a1 ++ g ++ b1 ++ rest))%nat)
    by (unfold recv_count; rewrite !length_app; lia).
  rewrite !decode_pong_recv by lia. rewrite <- Hc.
  destruct (sub_after_header a1 g b1 rest (recv_count (a1 ++ g ++ b1 ++ rest)))
    as [-> ->]; auto.
  destruct (sub_after_header a2 g b2 rest (recv_count (a1 ++ g ++ b1 ++ rest)))
    as [-> ->]; auto.
Qed.

Lemma reply_header_unchecked_witness :
  run_status localhost None golden_world =
  run_status localhost None
    (with_reply golden_world
       (Some (repeat 0 9 ++ i64_to_be_bytes 7 ++ repeat 255 18 ++ golden_data,
              some_src))).
Proof.
  change golden_world with
    (with_reply golden_world
       (Some (([0x1c] ++ i64_to_be_bytes 1) ++ i64_to_be_bytes 7 ++
              (MAGIC ++ [0; 86]) ++ golden_data, some_src))).
  apply reply_header_unchecked; reflexivity.
Defined.

(** X12: the call connects to ["h:port"] with the port defaulting to 19132,
    and a returned [Status] records the caller's host and that port. *)
Theorem connect_target_and_host h p w st :
  (forall a, In (OpConnect a) (fst (run_status h p w)) ->
     a = h ++ [58] ++ int_to_string (unwrap_or p 19132)) /\
  (snd (run_status h p w) = Ok st ->
     host (server st) = h /\ port (server st) = unwrap_or p 19132) /\
  unwrap_or None 19132 = 19132.
Proof.
  split; [|split; [|reflexivity]].
  - intros a H. apply run_status_ops in H.
    destruct H as [H|[H|[H|[H|[[t [_ H]]|H]]]]]; try discriminate.
    injection H as ->. reflexivity.
  - intros H.
    assert (Hrun : run_status h p w = (fst (run_status h p w), Ok st))
      by (rewrite <- H; apply surjective_pairing).
    destruct (run_status_ok_decoded h p w _ st Hrun) as [d [src [_ [_ [_ ->]]]]].
    split; reflexivity.
Qed.

Lemma recv_count_firstn d : recv_count d = List.length (firstn 1024 d).
Proof. unfold recv_count. rewrite length_firstn. lia. Qed.

Lemma firstn_recv_count d : firstn (recv_count d) d = firstn 1024 d.
Proof.
  unfold recv_count. destruct (Nat.le_ge_cases (List.length d) 1024).
  - rewrite Nat.min_l by exact H. rewrite firstn_all, firstn_all2 by exact H.
    reflexivity.
  - rewrite Nat.min_r by exact H. reflexivity.
Qed.

(** X13: only the first 1024 bytes of a reply matter: two replies that agree
    on them give the call the same trace and the same outcome. *)
Theorem reply_truncated_to_1024 h p w d1 d2 src :
  firstn 1024 d1 = firstn 1024 d2 ->
  run_status h p (with_reply w (Some (d1, src))) =
  run_status h p (with_reply w (Some (d2, src))).
Proof.
  intros E. unfold_status. unfold since_epoch_ms, with_reply.
  cbn [w_bind_ok w_resolve w_recv w_send_ok w_now_ms w_rand].
  destruct (w_bind_ok w); [|reflexivity].
  destruct (w_resolve w _); [|reflexivity].
  destruct (w_now_ms w <? 0); [reflexivity|].
  destruct (w_now_ms w <=? 2 ^ 63 - 1); [|reflexivity].
  destruct (w_send_ok w); [|reflexivity].
  subst pk. rewrite repeat_length.
  fold (recv_count d1) (recv_count d2).
  rewrite !firstn_recv_count, !recv_count_firstn, E. reflexivity.
Qed.

Lemma reply_truncated_to_1024_witness :
  run_status localhost None
    (with_reply golden_world (Some (pong 7 golden_data ++ repeat 32 1000 ++ [1], some_src))) =
  run_status localhost None
    (with_reply golden_world (Some (pong 7 golden_data ++ repeat 32 1000 ++ [2], some_src))).
Proof.
  apply reply_truncated_to_1024. vm_compute. reflexivity.
Defined.

(** X14: the [Status] depends on the payload only through tokens 0 to 5
    and 7: token 6, tokens from index 8 on, and anything past the ninth
    ';'-separated piece never change it. *)
Theorem status_depends_on_tokens h prt src g data1 data2 :
  (forall i, In i [0; 1; 2; 3; 4; 5; 7]%nat ->
     nth i (split_semi data1) [] = nth i (split_semi data2) []) ->
  mk_status h prt src g data1 = mk_status h prt src g data2.
Proof.
  intros H. unfold mk_status; cbn -[firstn nth parse_i32 split_semi].
  rewrite !nth_first9 by lia.
  rewrite (H 0%nat), (H 1%nat), (H 2%nat), (H 3%nat), (H 4%nat), (H 5%nat),
    (H 7%nat) by (simpl; tauto).
  reflexivity.
Qed.

Lemma status_depends_on_tokens_witness :
  mk_status localhost 19132 some_src 7 golden_data =
  mk_status localhost 19132 some_src 7
    (lit "MCPE;Dedicated Server;475;1.18.0;5;20;42;Bedrock level;Creative;x;y").
Proof.
  apply status_depends_on_tokens.
  intros i Hi. simpl in Hi.
  repeat (destruct Hi as [<-|Hi]; [vm_compute; reflexivity|]). destruct Hi.
Defined.

(** X15: a payload without any ';' (the empty payload included) becomes
    the edition; both MOTD lines and the version name are empty, the
    protocol is 1 and both player counts are -1. *)
Theorem payload_without_separator h prt src g data :
  ~ In 59 data ->
  mk_status h prt src g data =
  mkStatus (mkServer h prt (sock_addr_to_string src) g data ([], []))
           (mkVersion 1 []) (mkPlayers (-1) (-1)).
Proof.
  intros H.
  assert (E : split_semi data = [data]).
  { rewrite <- (app_nil_r data), split_semi_app by exact H.
    simpl. rewrite app_nil_r. reflexivity. }
  unfold mk_status. rewrite E. reflexivity.
Qed.

Lemma payload_without_separator_witness :
  mk_status localhost 19132 some_src 7 (lit "MCPE") =
  mkStatus (mkServer localhost 19132 (sock_addr_to_string some_src) 7 (lit "MCPE")
              ([], []))
           (mkVersion 1 []) (mkPlayers (-1) (-1)).
Proof.
  apply payload_without_separator. vm_compute. intros [H|[H|[H|[H|[]]]]]; discriminate.
Defined.
